(** * The wheel catalog browser of app.js

    A shallow embedding of the filtering, searching, dropdown and copy
    feedback code of [app.js], and the properties of the specification
    settled against it.

    The two catalog arrays [flashAttn2] and [flashAttn3] come from a data
    file that is loaded before [app.js]; here they are the variables of a
    section.  The three module-level variables of the script
    ([currentVersion], [filters], [searchQuery]) and the part of the page
    the script writes to are the fields of one state record that every
    handler takes and returns. *)

From Stdlib Require Import String Ascii List Bool Arith ZArith QArith Lia Lqa.
From Stdlib Require Import Sorted Permutation.
Import ListNotations.
Open Scope string_scope.

(** ** The string methods the script calls *)

Module JSString.

(** [toLowerCase] on one code unit.  Strings are sequences of 8-bit
    characters here, so the letters with a lower case are [A]-[Z]. *)
Definition lowerChar (c : ascii) : ascii :=
  let n := nat_of_ascii c in
  if (65 <=? n)%nat && (n <=? 90)%nat then ascii_of_nat (n + 32) else c.

Fixpoint toLowerCase (s : string) : string :=
  match s with
  | EmptyString => EmptyString
  | String c s' => String (lowerChar c) (toLowerCase s')
  end.

(** [s.startsWith(p)] *)
Fixpoint startsWith (s p : string) : bool :=
  match p, s with
  | EmptyString, _ => true
  | String _ _, EmptyString => false
  | String a p', String b s' => Ascii.eqb a b && startsWith s' p'
  end.

(** [s.includes(q)]: [q] occurs in [s] at some position. *)
Fixpoint includes (s q : string) : bool :=
  match s with
  | EmptyString => startsWith EmptyString q
  | String _ s' => startsWith s q || includes s' q
  end.

(** A string used as a condition: only the empty string is falsy. *)
Definition truthy (s : string) : bool :=
  match s with EmptyString => false | String _ _ => true end.

(** [a !== b] on two strings. *)
Definition strictNe (a b : string) : bool := negb (String.eqb a b).

End JSString.

Import JSString.

(** ** Catalog entries and selection state *)

(** One element of [flashAttn2] or [flashAttn3], with the properties the
    script reads. *)
Module Wheel.
Record t : Type := mk {
  v : string;
  cuda : string;
  py : string;
  torch : string;
  os : string;
  url : string;
  size : string
}.
End Wheel.

(** The [filters] object. *)
Module Filters.
Record t : Type := mk {
  cuda : string;
  python : string;
  pytorch : string;
  platform : string
}.
End Filters.

(** The property names [getUnique] is called with, and [w[key]]. *)
Inductive key : Type := K_v | K_cuda | K_py | K_torch | K_os | K_url | K_size.

Definition prop (w : Wheel.t) (k : key) : string :=
  match k with
  | K_v => Wheel.v w
  | K_cuda => Wheel.cuda w
  | K_py => Wheel.py w
  | K_torch => Wheel.torch w
  | K_os => Wheel.os w
  | K_url => Wheel.url w
  | K_size => Wheel.size w
  end.

(** The four facets of the page, the [filters] property that holds the
    selection of each, and the wheel property it is compared with. *)
Inductive facet : Type := Cuda | Python | Pytorch | Platform.

Definition selected (f : Filters.t) (fc : facet) : string :=
  match fc with
  | Cuda => Filters.cuda f
  | Python => Filters.python f
  | Pytorch => Filters.pytorch f
  | Platform => Filters.platform f
  end.

Definition facetKey (fc : facet) : key :=
  match fc with
  | Cuda => K_cuda
  | Python => K_py
  | Pytorch => K_torch
  | Platform => K_os
  end.

Definition setFilter (f : Filters.t) (fc : facet) (x : string) : Filters.t :=
  match fc with
  | Cuda => Filters.mk x (Filters.python f) (Filters.pytorch f) (Filters.platform f)
  | Python => Filters.mk (Filters.cuda f) x (Filters.pytorch f) (Filters.platform f)
  | Pytorch => Filters.mk (Filters.cuda f) (Filters.python f) x (Filters.platform f)
  | Platform => Filters.mk (Filters.cuda f) (Filters.python f) (Filters.pytorch f) x
  end.

(** [{ cuda: 'all', python: 'all', pytorch: 'all', platform: 'all' }] *)
Definition noFilters : Filters.t := Filters.mk "all" "all" "all" "all".

(** ** Numbers, [parseFloat] and [Array.prototype.sort] *)

Module JSNumber.

(** The values of a JavaScript number that the comparator of [getUnique]
    can tell apart.  A finite double is a rational number and is kept as
    that rational; [-0] is [0].  [parseFloat] below gives the value of the
    decimal literal itself: the double the engine makes of it is the
    nearest one, which orders two literals the same way as long as they do
    not round to one double (literals of up to 15 significant digits never
    do). *)
Inductive number : Type := NaN | NegInf | Fin (q : Q) | PosInf.

Definition isWhiteSpace (c : ascii) : bool :=
  let n := nat_of_ascii c in
  ((9 <=? n)%nat && (n <=? 13)%nat) || (n =? 32)%nat.

Fixpoint trimStart (s : string) : string :=
  match s with
  | EmptyString => EmptyString
  | String c s' => if isWhiteSpace c then trimStart s' else s
  end.

Definition digitOf (c : ascii) : option Z :=
  let n := nat_of_ascii c in
  if (48 <=? n)%nat && (n <=? 57)%nat then Some (Z.of_nat (n - 48)) else None.

(** The longest run of decimal digits at the head of [s]: its value on
    top of [acc], the number of digits read on top of [cnt], and the
    rest of the string. *)
Fixpoint digits (acc : Z) (cnt : nat) (s : string) : Z * nat * string :=
  match s with
  | EmptyString => (acc, cnt, s)
  | String c s' =>
      match digitOf c with
      | Some d => digits (10 * acc + d) (S cnt) s'
      | None => (acc, cnt, s)
      end
  end.

(** The exponent part at the head of [s]; an [e] that no digit follows
    is not one. *)
Definition exponent (s : string) : Z :=
  match s with
  | String c s' =>
      if Ascii.eqb c "e" || Ascii.eqb c "E" then
        let '(neg, s'') :=
          match s' with
          | String "-" r => (true, r)
          | String "+" r => (false, r)
          | _ => (false, s')
          end in
        let '(e, n, _) := digits 0 0 s'' in
        if (n =? 0)%nat then 0%Z else if neg then (- e)%Z else e
      else 0%Z
  | EmptyString => 0%Z
  end.

Definition pow10 (e : Z) : Q :=
  if (0 <=? e)%Z then inject_Z (10 ^ e) else / inject_Z (10 ^ (- e)).

(** The longest prefix that is an unsigned decimal literal. *)
Definition unsignedLiteral (s : string) : number :=
  if startsWith s "Infinity" then PosInf else
  let '(i, ni, r) := digits 0 0 s in
  let '(m, nf, r') :=
    match r with
    | String "." r1 => digits i 0 r1
    | _ => (i, 0%nat, r)
    end in
  if (ni + nf =? 0)%nat then NaN
  else Fin (inject_Z m * pow10 (exponent r' - Z.of_nat nf)).

Definition neg (n : number) : number :=
  match n with
  | NaN => NaN
  | NegInf => PosInf
  | Fin q => Fin (- q)
  | PosInf => NegInf
  end.

Definition parseFloat (s : string) : number :=
  match trimStart s with
  | String "-" r => neg (unsignedLiteral r)
  | String "+" r => unsignedLiteral r
  | t => unsignedLiteral t
  end.

(** [a - b].  Of a finite difference only the sign is used below, and
    the sign of a difference of two doubles is that of the exact
    difference. *)
Definition sub (a b : number) : number :=
  match a, b with
  | NaN, _ | _, NaN => NaN
  | PosInf, PosInf | NegInf, NegInf => NaN
  | PosInf, _ | _, NegInf => PosInf
  | NegInf, _ | _, PosInf => NegInf
  | Fin x, Fin y => Fin (x - y)
  end.

(** The sign of a number, [None] for [NaN]. *)
Definition sign (n : number) : option comparison :=
  match n with
  | NaN => None
  | NegInf => Some Lt
  | Fin q => Some (q ?= 0)%Q
  | PosInf => Some Gt
  end.

Definition isNaN (n : number) : bool :=
  match n with NaN => true | _ => false end.

(** [a <= b] on numbers: false as soon as one side is [NaN]. *)
Definition leb (a b : number) : bool :=
  match a, b with
  | NaN, _ | _, NaN => false
  | NegInf, _ | _, PosInf => true
  | _, NegInf | PosInf, _ => false
  | Fin x, Fin y => Qle_bool x y
  end.

End JSNumber.

Import JSNumber.

Module JSArray.

Section Sort.
Context {A : Type} (comparefn : A -> A -> number).

(** What the sort makes of [comparefn(x, y)]: a [NaN] counts as [+0]. *)
Definition sortCompare (x y : A) : comparison :=
  match sign (comparefn x y) with
  | None => Eq
  | Some c => c
  end.

(** [x] stood before every element of the sorted [l]; it moves behind
    the elements the comparator puts strictly before it. *)
Fixpoint insert (x : A) (l : list A) : list A :=
  match l with
  | [] => [x]
  | y :: l' =>
      match sortCompare x y with
      | Gt => y :: insert x l'
      | _ => x :: l
      end
  end.

(** [l.sort(comparefn)].  The sort of the language is stable, and for a
    consistent comparator every stable sort gives this list; for an
    inconsistent one the order is left to the engine and this is one
    such order. *)
Fixpoint sort (l : list A) : list A :=
  match l with
  | [] => []
  | x :: l' => insert x (sort l')
  end.
End Sort.

(** [set.add(x)] on the insertion-ordered elements of a [Set]. *)
Definition setAdd (seen : list string) (x : string) : list string :=
  if existsb (String.eqb x) seen then seen else seen ++ [x].

(** [[...new Set(l)]]: the distinct elements of [l], each at the place
    of its first occurrence. *)
Definition spreadSet (l : list string) : list string :=
  fold_left setAdd l [].

End JSArray.

Import JSArray.


(** ** The page *)

Module Dom.

(** A [select] element: its options (value and label) and the value it
    reads.  *)
Record select : Type := mkSelect {
  options : list (string * string);
  value : string
}.

(** [select.value = x]: the option with that value becomes the selected
    one; when there is none, no option is selected and the value reads
    as the empty string. *)
Definition setValue (s : select) (x : string) : select :=
  {| options := options s;
     value := if existsb (fun o => String.eqb (fst o) x) (options s)
              then x else "" |}.

(** What [renderWheel] puts on a card: the five badges, the two install
    commands (shown, and handed to [copyCmd] by the copy buttons), the
    size label and the target of the download link. *)
Record card : Type := mkCard {
  badges : list string;
  pipCmd : string;
  uvCmd : string;
  sizeLabel : string;
  href : string
}.

(** The content of the [wheel-list] element. *)
Inductive listing : Type :=
| EmptyState
| Cards (cards : list card).

(** The elements the script looks up by id. *)
Record page : Type := mkPage {
  cudaFilter : select;
  pythonFilter : select;
  pytorchFilter : select;
  platformFilter : select;
  search : string;
  count : nat;
  wheelList : listing;
  background : string
}.

End Dom.

(** The module-level variables of the script, and the page. *)
Record state : Type := mkState {
  currentVersion : string;
  filters : Filters.t;
  searchQuery : string;
  page : Dom.page
}.

Definition platformLabels : list (string * string) :=
  [ ("linux_x86_64", "Linux x86_64");
    ("linux_aarch64", "Linux ARM64");
    ("win_amd64", "Windows") ].

(** [platformLabels[x] || x] *)
Definition platformLabel (x : string) : string :=
  match find (fun p => String.eqb (fst p) x) platformLabels with
  | Some (_, l) => l
  | None => x
  end.

(** The search test of [filterWheels] (lines 69 to 71), for a truthy
    [searchQuery]. *)
Definition searchMatches (searchQuery : string) (w : Wheel.t) : bool :=
  let q := toLowerCase searchQuery in
  includes (Wheel.v w) q || includes (Wheel.cuda w) q ||
  includes (Wheel.py w) q || includes (Wheel.torch w) q ||
  includes (toLowerCase (Wheel.os w)) q.

(** The callback that [filterWheels] passes to [Array.prototype.filter]. *)
Definition keep (f : Filters.t) (searchQuery : string) (w : Wheel.t) : bool :=
  if strictNe (Filters.cuda f) "all" && strictNe (Wheel.cuda w) (Filters.cuda f)
  then false else
  if strictNe (Filters.python f) "all" && strictNe (Wheel.py w) (Filters.python f)
  then false else
  if strictNe (Filters.pytorch f) "all" && strictNe (Wheel.torch w) (Filters.pytorch f)
  then false else
  if strictNe (Filters.platform f) "all" && strictNe (Wheel.os w) (Filters.platform f)
  then false else
  if truthy searchQuery then searchMatches searchQuery w
  else true.

Definition renderWheel (wheel : Wheel.t) : Dom.card :=
  let pipCmd := "pip install " ++ Wheel.url wheel in
  let uvCmd := "uv pip install " ++ Wheel.url wheel in
  {| Dom.badges := [ "v" ++ Wheel.v wheel;
                     "CUDA " ++ Wheel.cuda wheel;
                     "PyTorch " ++ Wheel.torch wheel;
                     "Python " ++ Wheel.py wheel;
                     platformLabel (Wheel.os wheel) ];
     Dom.pipCmd := pipCmd;
     Dom.uvCmd := uvCmd;
     Dom.sizeLabel := Wheel.size wheel;
     Dom.href := Wheel.url wheel |}.

(** The comparator of [getUnique]: [parseFloat(b) - parseFloat(a)]. *)
Definition byParseFloat (a b : string) : number :=
  sub (parseFloat b) (parseFloat a).

Section App.

(** The two arrays of the data file. *)
Variables flashAttn2 flashAttn3 : list Wheel.t.

Definition getWheels (st : state) : list Wheel.t :=
  if String.eqb (currentVersion st) "2" then flashAttn2
  else if String.eqb (currentVersion st) "3" then flashAttn3
  else flashAttn2 ++ flashAttn3.

Definition getUnique (st : state) (k : key) : list string :=
  let wheels := getWheels st in
  let values := spreadSet (map (fun w => prop w k) wheels) in
  sort byParseFloat values.

(** A dropdown as [populateFilters] leaves it: the [All] option, one
    option per value, and the selection of [filters] put back. *)
Definition dropdown (labelOf : string -> string) (values : list string)
    (sel : string) : Dom.select :=
  Dom.setValue
    {| Dom.options := ("all", "All") :: map (fun x => (x, labelOf x)) values;
       Dom.value := "all" |}
    sel.

Definition populateFilters (st : state) : state :=
  let p := page st in
  {| currentVersion := currentVersion st;
     filters := filters st;
     searchQuery := searchQuery st;
     page :=
       {| Dom.cudaFilter :=
            dropdown (fun x => x) (getUnique st K_cuda) (Filters.cuda (filters st));
          Dom.pythonFilter :=
            dropdown (fun x => x) (getUnique st K_py) (Filters.python (filters st));
          Dom.pytorchFilter :=
            dropdown (fun x => x) (getUnique st K_torch) (Filters.pytorch (filters st));
          Dom.platformFilter :=
            dropdown platformLabel (getUnique st K_os) (Filters.platform (filters st));
          Dom.search := Dom.search p;
          Dom.count := Dom.count p;
          Dom.wheelList := Dom.wheelList p;
          Dom.background := Dom.background p |} |}.

Definition filterWheels (st : state) : list Wheel.t :=
  filter (keep (filters st) (searchQuery st)) (getWheels st).

Definition render (st : state) : state :=
  let wheels := filterWheels st in
  let p := page st in
  let shown :=
    if (length wheels =? 0)%nat
    then (Dom.EmptyState, "transparent")
    else (Dom.Cards (map renderWheel wheels), "var(--black)") in
  {| currentVersion := currentVersion st;
     filters := filters st;
     searchQuery := searchQuery st;
     page :=
       {| Dom.cudaFilter := Dom.cudaFilter p;
          Dom.pythonFilter := Dom.pythonFilter p;
          Dom.pytorchFilter := Dom.pytorchFilter p;
          Dom.platformFilter := Dom.platformFilter p;
          Dom.search := Dom.search p;
          Dom.count := length wheels;
          Dom.wheelList := fst shown;
          Dom.background := snd shown |} |}.

Definition clearFilters (st : state) : state :=
  let p := page st in
  render (populateFilters
    {| currentVersion := currentVersion st;
       filters := noFilters;
       searchQuery := "";
       page :=
         {| Dom.cudaFilter := Dom.cudaFilter p;
            Dom.pythonFilter := Dom.pythonFilter p;
            Dom.pytorchFilter := Dom.pytorchFilter p;
            Dom.platformFilter := Dom.platformFilter p;
            Dom.search := "";
            Dom.count := Dom.count p;
            Dom.wheelList := Dom.wheelList p;
            Dom.background := Dom.background p |} |}).

(** The click handler of a version button, with [btn.dataset.version]. *)
Definition onVersionClick (version : string) (st : state) : state :=
  render (populateFilters
    {| currentVersion := version;
       filters := filters st;
       searchQuery := searchQuery st;
       page := page st |}).

(** The [input] handler of the search box, with [e.target.value]; the
    page it gets already shows what the user typed, as it shows the
    choice made in a dropdown when the [change] handler below runs. *)
Definition onSearchInput (text : string) (st : state) : state :=
  render
    {| currentVersion := currentVersion st;
       filters := filters st;
       searchQuery := text;
       page := page st |}.

(** The [change] handler of a dropdown, with [e.target.value]. *)
Definition onFilterChange (fc : facet) (x : string) (st : state) : state :=
  render
    {| currentVersion := currentVersion st;
       filters := setFilter (filters st) fc x;
       searchQuery := searchQuery st;
       page := page st |}.

End App.

(** The values the script gives its variables when it is loaded; the
    page is the one of the document. *)
Definition initial (p : Dom.page) : state :=
  {| currentVersion := "all"; filters := noFilters; searchQuery := ""; page := p |}.

Definition blankSelect : Dom.select := {| Dom.options := []; Dom.value := "" |}.

Definition blankPage : Dom.page :=
  {| Dom.cudaFilter := blankSelect; Dom.pythonFilter := blankSelect;
     Dom.pytorchFilter := blankSelect; Dom.platformFilter := blankSelect;
     Dom.search := ""; Dom.count := 0; Dom.wheelList := Dom.EmptyState;
     Dom.background := "" |}.

(** ** The copy button *)

Open Scope nat_scope.

Module Copy.

(** The two pictures a copy button shows. *)
Inductive icon : Type := CopyIcon | CheckIcon.

Record button : Type := mkButton {
  classList : list string;
  innerHTML : icon
}.

(** [classList.add(token)]: a token list holds a token once. *)
Definition add (token : string) (l : list string) : list string :=
  if existsb (String.eqb token) l then l else l ++ [token].

(** [classList.remove(token)] *)
Definition remove (token : string) (l : list string) : list string :=
  filter (fun t => negb (String.eqb token t)) l.

(** One copy button in the event loop: the time in milliseconds, the
    clipboard, the button, the times at which the pending [setTimeout]
    callbacks of the button are due, and how many of them have run (a
    counter for the statements; the script keeps none). *)
Record world : Type := mkWorld {
  clock : Z;
  clipboard : string;
  btn : button;
  timers : list Z;
  reverts : nat
}.

(** The callback handed to [setTimeout]. *)
Definition revert (w : world) : world :=
  {| clock := clock w;
     clipboard := clipboard w;
     btn := {| classList := remove "copied" (classList (btn w));
               innerHTML := CopyIcon |};
     timers := timers w;
     reverts := S (reverts w) |}.

(** [copyCmd(btn, cmd)], at the time the awaited clipboard write is
    done: the text is on the clipboard, the button is marked, and a
    callback is set for 1500 ms later.  No timer is cleared. *)
Definition copyCmd (cmd : string) (w : world) : world :=
  {| clock := clock w;
     clipboard := cmd;
     btn := {| classList := add "copied" (classList (btn w));
               innerHTML := CheckIcon |};
     timers := timers w ++ [(clock w + 1500)%Z];
     reverts := reverts w |}.

Definition due (t d : Z) : bool := (d <=? t)%Z.

(** The world at time [t]: every callback due by then has run. *)
Definition advance (t : Z) (w : world) : world :=
  fold_left (fun w' _ => revert w')
    (filter (due t) (timers w))
    {| clock := Z.max (clock w) t;
       clipboard := clipboard w;
       btn := btn w;
       timers := filter (fun d => negb (due t d)) (timers w);
       reverts := reverts w |}.

(** A button as [renderWheel] writes it, before any click. *)
Definition idle : world :=
  {| clock := 0;
     clipboard := "";
     btn := {| classList := ["copy-btn"]; innerHTML := CopyIcon |};
     timers := [];
     reverts := 0 |}.

(** The button is marked as copied. *)
Definition shown (w : world) : bool :=
  existsb (String.eqb "copied") (classList (btn w)).

(** Two copies on the same button, done at [t1] and at [t2], seen at
    time [t]. *)
Definition twice (cmd : string) (t1 t2 t : Z) : world :=
  advance t (copyCmd cmd (advance t2 (copyCmd cmd (advance t1 idle)))).

End Copy.

(** ** The notions the statements use *)

(** [q] occurs in [s]. *)
Definition Substring (q s : string) : Prop :=
  exists pre post, s = pre ++ q ++ post.

(** [q] occurs in [s] when the case of letters is ignored. *)
Definition ciSubstring (q s : string) : Prop :=
  Substring (toLowerCase q) (toLowerCase s).

(** The five properties the search looks at. *)
Definition searched : list key := [K_v; K_cuda; K_py; K_torch; K_os].

(** The wheel meets the selection of one facet: nothing is selected
    there, or its property is the selected value. *)
Definition meets (f : Filters.t) (w : Wheel.t) (fc : facet) : Prop :=
  selected f fc = "all" \/ prop w (facetKey fc) = selected f fc.

Definition meetsb (f : Filters.t) (w : Wheel.t) (fc : facet) : bool :=
  String.eqb (selected f fc) "all" ||
  String.eqb (prop w (facetKey fc)) (selected f fc).

(** The family of a wheel read from the first character of its version,
    against a scope: for ["all"] either family. *)
Definition familyMatches (scope : string) (w : Wheel.t) : bool :=
  if String.eqb scope "all"
  then startsWith (Wheel.v w) "2" || startsWith (Wheel.v w) "3"
  else startsWith (Wheel.v w) scope.

(** [l1] is [l2] with some elements left out, the others in place. *)
Inductive subseq {A : Type} : list A -> list A -> Prop :=
| subseq_nil : subseq [] []
| subseq_skip x l1 l2 : subseq l1 l2 -> subseq l1 (x :: l2)
| subseq_take x l1 l2 : subseq l1 l2 -> subseq (x :: l1) (x :: l2).

(** Every value is at least every later one, as numbers. *)
Definition descending (l : list string) : Prop :=
  StronglySorted (fun a b => leb (parseFloat b) (parseFloat a) = true) l.

(** ** Sample data *)

Definition wheelA : Wheel.t :=
  Wheel.mk "2.5.3" "12.1" "3.10" "2.5" "linux_aarch64"
           "https://example.org/fa2-a.whl" "180 MB".

Definition wheelB : Wheel.t :=
  Wheel.mk "2.5.3" "11.8" "3.9" "2.4" "linux_x86_64"
           "https://example.org/fa2-b.whl" "175 MB".

Definition wheelC : Wheel.t :=
  Wheel.mk "3.0.0" "12.8" "3.12" "2.8" "win_amd64"
           "https://example.org/fa3-c.whl" "210 MB".

(** A wheel whose version carries an upper-case letter. *)
Definition wheelBeta : Wheel.t :=
  Wheel.mk "3.0.0B1" "12.8" "3.12" "2.8" "linux_x86_64"
           "https://example.org/fa3-beta.whl" "210 MB".

(** A wheel whose CUDA version is the number of [wheelA]'s, written
    with one more digit. *)
Definition wheelD : Wheel.t :=
  Wheel.mk "2.5.3" "12.10" "3.11" "2.5" "linux_x86_64"
           "https://example.org/fa2-d.whl" "181 MB".

Definition sampleState (version : string) (f : Filters.t) (q : string) : state :=
  {| currentVersion := version; filters := f; searchQuery := q; page := blankPage |}.

(** ** The load handler, and runs of the copy button *)

(** What the [DOMContentLoaded] handler does before it registers the
    other handlers (lines 188 and 189), on the variables as the script
    sets them when it is loaded. *)
Definition onLoad (flashAttn2 flashAttn3 : list Wheel.t) (p : Dom.page) : state :=
  render flashAttn2 flashAttn3 (populateFilters flashAttn2 flashAttn3 (initial p)).

(** The dropdown of a facet. *)
Definition facetSelect (p : Dom.page) (fc : facet) : Dom.select :=
  match fc with
  | Cuda => Dom.cudaFilter p
  | Python => Dom.pythonFilter p
  | Pytorch => Dom.pytorchFilter p
  | Platform => Dom.platformFilter p
  end.


(** The count, the list and its background agree: the empty state with
    a count of zero, or as many cards as the count says, at least one. *)
Definition consistent (p : Dom.page) : Prop :=
  match Dom.wheelList p with
  | Dom.EmptyState => Dom.count p = 0 /\ Dom.background p = "transparent"
  | Dom.Cards cs =>
      length cs = Dom.count p /\ 0 < Dom.count p /\
      Dom.background p = "var(--black)"
  end.

(** The page shows the wheels that the variables select now. *)
Definition upToDate (flashAttn2 flashAttn3 : list Wheel.t) (st : state) : Prop :=
  Dom.count (page st) = length (filterWheels flashAttn2 flashAttn3 st) /\
  consistent (page st) /\
  forall cs, Dom.wheelList (page st) = Dom.Cards cs ->
             cs = map renderWheel (filterWheels flashAttn2 flashAttn3 st).








(** Two values that are the same number. *)
Definition sameNumber (a b : number) : bool := leb a b && leb b a.

(** ** Sample runs *)

Example parseFloat_3_10 : parseFloat "3.10" = Fin (310 # 100).
Proof. vm_compute. reflexivity. Qed.

Example parseFloat_prefixes :
  map (fun s => isNaN (parseFloat s)) ["12.1x"; "5."; ".5"; "1e"; "."; "e5"; "win_amd64"] =
  [false; false; false; false; true; true; true].
Proof. vm_compute. reflexivity. Qed.

Example sort_python_versions :
  sort byParseFloat ["3.10"; "3.9"; "3.12"] = ["3.9"; "3.12"; "3.10"].
Proof. vm_compute. reflexivity. Qed.

(** One wheel of version 2.5.3 for CUDA 12.1, the CUDA dropdown put on
    12.1: the wheel is shown for the scope ["2"] and not for ["3"]. *)
Example cuda_then_scope :
  filterWheels [wheelA] []
    (onVersionClick [wheelA] [] "2"
       (onFilterChange [wheelA] [] Cuda "12.1" (initial blankPage))) = [wheelA] /\
  filterWheels [wheelA] []
    (onVersionClick [wheelA] [] "3"
       (onFilterChange [wheelA] [] Cuda "12.1" (initial blankPage))) = [].
Proof. split; vm_compute; reflexivity. Qed.

(** ** Strings *)

Lemma startsWith_spec (p s : string) :
  startsWith s p = true <-> exists t, s = p ++ t.
Proof.
  revert s; induction p as [|a p IH]; intros s.
  - split; [intros _; exists s; reflexivity | intros _; destruct s; reflexivity].
  - destruct s as [|b s]; simpl.
    + split; [discriminate | intros [t Ht]; discriminate].
    + rewrite andb_true_iff, Ascii.eqb_eq, IH. split.
      * intros [-> [t ->]]. exists t; reflexivity.
      * intros [t Ht]. injection Ht as -> ->. split; [reflexivity | exists t; reflexivity].
Qed.

Lemma includes_empty (q : string) : includes "" q = startsWith "" q.
Proof. reflexivity. Qed.

Lemma includes_String (c : ascii) (s q : string) :
  includes (String c s) q = startsWith (String c s) q || includes s q.
Proof. reflexivity. Qed.

Lemma includes_spec (q s : string) :
  includes s q = true <-> Substring q s.
Proof.
  unfold Substring. induction s as [|c s IH].
  - rewrite includes_empty, startsWith_spec. split.
    + intros [t Ht]. exists "", t. exact Ht.
    + intros [pre [post H]]. destruct pre; [|discriminate].
      exists post. exact H.
  - rewrite includes_String, orb_true_iff, startsWith_spec, IH. split.
    + intros [[t Ht] | [pre [post H]]].
      * exists "", t. exact Ht.
      * exists (String c pre), post. simpl. now rewrite H.
    + intros [pre [post H]]. destruct pre as [|a pre]; simpl in H.
      * left. exists post. exact H.
      * right. injection H as _ H. exists pre, post. exact H.
Qed.


Lemma lowerChar_idem (c : ascii) : lowerChar (lowerChar c) = lowerChar c.
Proof.
  destruct c as [[] [] [] [] [] [] [] []]; reflexivity.
Qed.

Lemma toLowerCase_idem (s : string) : toLowerCase (toLowerCase s) = toLowerCase s.
Proof.
  induction s as [|c s IH]; simpl; [reflexivity | now rewrite lowerChar_idem, IH].
Qed.

Lemma truthy_spec (s : string) : truthy s = true <-> s <> "".
Proof. destruct s; simpl; split; congruence. Qed.

(** ** The filter callback *)

Lemma meetsb_spec f w fc : meetsb f w fc = true <-> meets f w fc.
Proof.
  unfold meetsb, meets. now rewrite orb_true_iff, !String.eqb_eq.
Qed.

Lemma keep_meetsb f q w :
  keep f q w =
  meetsb f w Cuda && meetsb f w Python && meetsb f w Pytorch &&
  meetsb f w Platform && (if truthy q then searchMatches q w else true).
Proof.
  unfold keep, meetsb, strictNe; simpl.
  destruct (String.eqb (Filters.cuda f) "all"),
           (String.eqb (Wheel.cuda w) (Filters.cuda f)),
           (String.eqb (Filters.python f) "all"),
           (String.eqb (Wheel.py w) (Filters.python f)),
           (String.eqb (Filters.pytorch f) "all"),
           (String.eqb (Wheel.torch w) (Filters.pytorch f)),
           (String.eqb (Filters.platform f) "all"),
           (String.eqb (Wheel.os w) (Filters.platform f)); reflexivity.
Qed.

Lemma keep_spec f q w :
  keep f q w = true <->
  (forall fc, meets f w fc) /\ (q <> "" -> searchMatches q w = true).
Proof.
  rewrite keep_meetsb, !andb_true_iff, !meetsb_spec. split.
  - intros [[[[H1 H2] H3] H4] H5]. split.
    + intros []; assumption.
    + intros Hq. apply truthy_spec in Hq. now rewrite Hq in H5.
  - intros [H Hs]. repeat split; try apply H.
    destruct (truthy q) eqn:E; [|reflexivity].
    apply Hs, truthy_spec, E.
Qed.

Lemma filter_subseq {A : Type} (p : A -> bool) (l : list A) :
  subseq (filter p l) l.
Proof.
  induction l as [|x l IH]; simpl.
  - constructor.
  - destruct (p x); now constructor.
Qed.

Section Filtering.

Variables flashAttn2 flashAttn3 : list Wheel.t.

Local Abbreviation getWheels := (getWheels flashAttn2 flashAttn3).
Local Abbreviation filterWheels := (filterWheels flashAttn2 flashAttn3).

Lemma filterWheels_In st w :
  In w (filterWheels st) <->
  In w (getWheels st) /\ keep (filters st) (searchQuery st) w = true.
Proof. unfold filterWheels. apply filter_In. Qed.

(** Whatever else is selected, a returned wheel has the selected value
    of every facet that is not on ["all"]. *)
Lemma filterWheels_facet st fc w :
  selected (filters st) fc <> "all" ->
  In w (filterWheels st) ->
  prop w (facetKey fc) = selected (filters st) fc.
Proof.
  intros Hne Hin. apply filterWheels_In in Hin as [_ Hk].
  apply keep_spec in Hk as [Hm _].
  destruct (Hm fc) as [H | H]; [contradiction | exact H].
Qed.

(** C1, as amended.  With a non-empty search text a wheel of the scoped
    catalog is returned exactly when it meets the selection of every facet
    and the search matches it: the search is a further condition, it does
    not stand in for the facet checks. *)
Theorem search_intersects_facets st w :
  searchQuery st <> "" ->
  (In w (filterWheels st) <->
   In w (getWheels st) /\
   (forall fc, meets (filters st) w fc) /\
   searchMatches (searchQuery st) w = true).
Proof.
  intros Hq. rewrite filterWheels_In, keep_spec. split.
  - intros [Hin [Hm Hs]]. auto.
  - intros [Hin [Hm Hs]]. auto.
Qed.

(** C2.  When one facet is set to a value other than ["all"] and the
    others are on ["all"], each returned wheel has exactly that value in
    the property of the facet. *)
Theorem single_facet_exact st fc x :
  x <> "all" ->
  filters st = setFilter noFilters fc x ->
  forall w, In w (filterWheels st) -> prop w (facetKey fc) = x.
Proof.
  intros Hx Hf w Hin.
  assert (Hsel : selected (filters st) fc = x) by (rewrite Hf; destruct fc; reflexivity).
  rewrite <- Hsel. apply filterWheels_facet; [congruence | exact Hin].
Qed.

(** C3, as amended.  For each of the scopes ["2"], ["3"] and ["all"] the
    returned wheels are taken, in order, from the array the scope selects
    ([flashAttn2], [flashAttn3], or the first followed by the second).  The
    version string is not read: the first character of the version of a
    returned wheel agrees with the scope when each array holds only
    versions that start with its own digit. *)
Theorem scope_selects_group st :
  In (currentVersion st) ["2"; "3"; "all"] ->
  (currentVersion st = "2" -> subseq (filterWheels st) flashAttn2) /\
  (currentVersion st = "3" -> subseq (filterWheels st) flashAttn3) /\
  (currentVersion st = "all" ->
   subseq (filterWheels st) (flashAttn2 ++ flashAttn3)%list) /\
  ((forall w, In w flashAttn2 -> startsWith (Wheel.v w) "2" = true) ->
   (forall w, In w flashAttn3 -> startsWith (Wheel.v w) "3" = true) ->
   forall w, In w (filterWheels st) ->
   familyMatches (currentVersion st) w = true).
Proof.
  intros Hscope.
  assert (Hsub : subseq (filterWheels st) (getWheels st)) by apply filter_subseq.
  unfold getWheels in Hsub.
  repeat split.
  - intros E. now rewrite E in Hsub.
  - intros E. now rewrite E in Hsub.
  - intros E. now rewrite E in Hsub.
  - intros H2 H3 w Hin. apply filterWheels_In in Hin as [Hin _].
    unfold getWheels in Hin. unfold familyMatches.
    simpl in Hscope. destruct Hscope as [E | [E | [E | []]]];
      rewrite <- E in *; simpl in *.
    + now apply H2.
    + now apply H3.
    + apply in_app_or in Hin as [Hin | Hin].
      * rewrite (H2 _ Hin). reflexivity.
      * rewrite (H3 _ Hin). apply orb_true_r.
Qed.

(** C8.  The list [filterWheels] returns is settled by the two arrays,
    [currentVersion], [filters] and [searchQuery]: two states that agree
    on these give the same list, whatever the rest of the state is. *)
Theorem filterWheels_deterministic s1 s2 :
  currentVersion s1 = currentVersion s2 ->
  filters s1 = filters s2 ->
  searchQuery s1 = searchQuery s2 ->
  filterWheels s1 = filterWheels s2.
Proof.
  intros Hv Hf Hq.
  unfold filterWheels, getWheels.
  now rewrite Hv, Hf, Hq.
Qed.

(** C10.  For every value of [currentVersion] other than ["2"] and ["3"],
    [getWheels] is [flashAttn2] followed by [flashAttn3], which is what it
    is for ["all"]. *)
Theorem getWheels_other_scope st :
  currentVersion st <> "2" ->
  currentVersion st <> "3" ->
  getWheels st = (flashAttn2 ++ flashAttn3)%list /\
  getWheels st =
  getWheels (mkState "all" (filters st) (searchQuery st) (page st)).
Proof.
  intros H2 H3. unfold getWheels. simpl.
  apply String.eqb_neq in H2, H3. rewrite H2, H3. split; reflexivity.
Qed.

End Filtering.

Lemma search_intersects_facets_witness :
  searchQuery (sampleState "all" (setFilter noFilters Cuda "12.1") "AArch64") <> "" /\
  (In wheelA (filterWheels [wheelA; wheelB] [wheelC]
                (sampleState "all" (setFilter noFilters Cuda "12.1") "AArch64")) <->
   In wheelA (getWheels [wheelA; wheelB] [wheelC]
                (sampleState "all" (setFilter noFilters Cuda "12.1") "AArch64")) /\
   (forall fc, meets (setFilter noFilters Cuda "12.1") wheelA fc) /\
   searchMatches "AArch64" wheelA = true).
Proof.
  split.
  - discriminate.
  - apply (search_intersects_facets [wheelA; wheelB] [wheelC]
             (sampleState "all" (setFilter noFilters Cuda "12.1") "AArch64") wheelA).
    discriminate.
Defined.

(** C1, as stated, fails: with the CUDA facet on ["11.8"] and the search
    text ["aarch64"], [wheelA] (CUDA ["12.1"], platform ["linux_aarch64"])
    is in the scoped catalog and the search matches it, and it is not
    returned. *)
Lemma search_does_not_override_facets :
  searchQuery (sampleState "all" (setFilter noFilters Cuda "11.8") "aarch64") <> "" /\
  In wheelA (getWheels [wheelA; wheelB] [wheelC]
               (sampleState "all" (setFilter noFilters Cuda "11.8") "aarch64")) /\
  searchMatches "aarch64" wheelA = true /\
  ~ In wheelA (filterWheels [wheelA; wheelB] [wheelC]
                 (sampleState "all" (setFilter noFilters Cuda "11.8") "aarch64")).
Proof.
  split; [discriminate|]. split; [left; reflexivity|]. split; [reflexivity|].
  vm_compute. intros [].
Qed.

Lemma single_facet_exact_witness :
  "12.1" <> "all" /\
  forall w,
    In w (filterWheels [wheelA; wheelB] [wheelC]
            (sampleState "all" (setFilter noFilters Cuda "12.1") "")) ->
    prop w (facetKey Cuda) = "12.1".
Proof.
  split.
  - discriminate.
  - apply (single_facet_exact [wheelA; wheelB] [wheelC]
             (sampleState "all" (setFilter noFilters Cuda "12.1") "") Cuda "12.1").
    + discriminate.
    + reflexivity.
Defined.

(** C3, as stated, fails: [wheelC] has version ["3.0.0"]; put in the array
    [flashAttn2], it is returned for the scope ["2"]. *)
Lemma version_digit_not_read :
  In "2" ["2"; "3"; "all"] /\
  In wheelC (filterWheels [wheelC] [] (sampleState "2" noFilters "")) /\
  familyMatches "2" wheelC = false.
Proof.
  split; [left; reflexivity|]. split; [left; reflexivity | reflexivity].
Qed.

Lemma scope_selects_group_witness :
  In "all" ["2"; "3"; "all"] /\
  subseq (filterWheels [wheelA; wheelB] [wheelC] (sampleState "all" noFilters "12."))
         ([wheelA; wheelB] ++ [wheelC])%list /\
  (forall w,
     In w (filterWheels [wheelA; wheelB] [wheelC] (sampleState "all" noFilters "12.")) ->
     familyMatches "all" w = true).
Proof.
  assert (Hscope : In "all" ["2"; "3"; "all"]) by (right; right; left; reflexivity).
  split; [exact Hscope|].
  destruct (scope_selects_group [wheelA; wheelB] [wheelC]
              (sampleState "all" noFilters "12.") Hscope) as (_ & _ & Hall & Hfam).
  split.
  - apply Hall. reflexivity.
  - apply Hfam.
    + intros w [<- | [<- | []]]; reflexivity.
    + intros w [<- | []]; reflexivity.
Defined.

Lemma filterWheels_deterministic_witness :
  filterWheels [wheelA; wheelB] [wheelC]
    (sampleState "2" (setFilter noFilters Python "3.9") "x86") =
  filterWheels [wheelA; wheelB] [wheelC]
    (mkState "2" (setFilter noFilters Python "3.9") "x86"
       (Dom.mkPage blankSelect blankSelect blankSelect blankSelect
          "typed" 7 (Dom.Cards []) "var(--black)")).
Proof.
  apply filterWheels_deterministic; reflexivity.
Defined.

Lemma getWheels_other_scope_witness :
  getWheels [wheelA; wheelB] [wheelC] (sampleState "4" noFilters "") =
  [wheelA; wheelB; wheelC] /\
  getWheels [wheelA; wheelB] [wheelC] (sampleState "4" noFilters "") =
  getWheels [wheelA; wheelB] [wheelC] (sampleState "all" noFilters "").
Proof.
  apply (getWheels_other_scope [wheelA; wheelB] [wheelC] (sampleState "4" noFilters ""));
    discriminate.
Defined.

(** ** The search test *)

(** When the version, CUDA, Python and PyTorch properties of a wheel hold
    no upper-case letter, the search test is the case-insensitive search
    of the five properties. *)
Lemma searchMatches_lower_case_fields q w :
  (forall k, In k [K_v; K_cuda; K_py; K_torch] -> toLowerCase (prop w k) = prop w k) ->
  (searchMatches q w = true <-> exists k, In k searched /\ ciSubstring q (prop w k)).
Proof.
  intros Hlow. unfold searchMatches, ciSubstring.
  rewrite !orb_true_iff, !includes_spec.
  assert (Hv := Hlow K_v). assert (Hc := Hlow K_cuda).
  assert (Hp := Hlow K_py). assert (Ht := Hlow K_torch). simpl in Hv, Hc, Hp, Ht.
  split.
  - intros [[[[H | H] | H] | H] | H].
    + exists K_v. split; [simpl; auto|]. simpl. rewrite Hv; auto.
    + exists K_cuda. split; [simpl; auto|]. simpl. rewrite Hc; auto.
    + exists K_py. split; [simpl; auto|]. simpl. rewrite Hp; auto.
    + exists K_torch. split; [simpl; auto 6|]. simpl. rewrite Ht; auto 6.
    + exists K_os. split; [simpl; auto 6|]. exact H.
  - intros [k [Hk H]]. simpl in Hk.
    destruct Hk as [<- | [<- | [<- | [<- | [<- | []]]]]]; simpl in H.
    + rewrite Hv in H; auto 6.
    + rewrite Hc in H; auto 6.
    + rewrite Hp in H; auto 6.
    + rewrite Ht in H; auto 6.
    + auto.
Qed.

(** C4.  The search test at [wheelBeta], whose version is ["3.0.0B1"], and
    the search text ["b1"]: the text occurs in the version when case is
    ignored, and the test rejects the wheel, so that [filterWheels]
    returns nothing.  The search text is put in lower case and so is the
    platform, while the version, CUDA, Python and PyTorch properties are
    compared as they are written. *)
Theorem search_misses_upper_case_version :
  "b1" <> "" /\
  ciSubstring "b1" (Wheel.v wheelBeta) /\
  searchMatches "b1" wheelBeta = false /\
  filterWheels [] [wheelBeta] (sampleState "all" noFilters "b1") = [].
Proof.
  split; [discriminate|]. split.
  - exists "3.0.0", "". reflexivity.
  - split; reflexivity.
Qed.

(** ** Distinct values and their order *)

Lemma existsb_eqb_In (x : string) (l : list string) :
  existsb (String.eqb x) l = true <-> In x l.
Proof.
  rewrite existsb_exists. split.
  - intros [y [Hy E]]. apply String.eqb_eq in E. now subst.
  - intros H. exists x. split; [exact H | apply String.eqb_refl].
Qed.

Lemma fold_setAdd_In (l acc : list string) (x : string) :
  In x (fold_left setAdd l acc) <-> In x acc \/ In x l.
Proof.
  revert acc; induction l as [|y l IH]; intros acc; simpl.
  - tauto.
  - rewrite IH. unfold setAdd.
    destruct (existsb (String.eqb y) acc) eqn:E.
    + apply existsb_eqb_In in E. split; [tauto|].
      intros [H | [-> | H]]; auto.
    + rewrite in_app_iff. simpl. tauto.
Qed.

Lemma fold_setAdd_NoDup (l acc : list string) :
  NoDup acc -> NoDup (fold_left setAdd l acc).
Proof.
  revert acc; induction l as [|y l IH]; intros acc Hacc; simpl.
  - exact Hacc.
  - apply IH. unfold setAdd.
    destruct (existsb (String.eqb y) acc) eqn:E; [exact Hacc|].
    apply NoDup_app; [exact Hacc | repeat constructor; intros [] |].
    intros z Hz [<- | []].
    apply existsb_eqb_In in Hz. congruence.
Qed.

Lemma spreadSet_In (l : list string) (x : string) : In x (spreadSet l) <-> In x l.
Proof. unfold spreadSet. rewrite fold_setAdd_In. simpl. tauto. Qed.

Lemma spreadSet_NoDup (l : list string) : NoDup (spreadSet l).
Proof. apply fold_setAdd_NoDup. constructor. Qed.

Section SortFacts.

Context {A : Type} (comparefn : A -> A -> number).

Lemma insert_Permutation (x : A) (l : list A) :
  Permutation (insert comparefn x l) (x :: l).
Proof.
  induction l as [|y l IH]; simpl.
  - apply Permutation_refl.
  - destruct (sortCompare comparefn x y); try apply Permutation_refl.
    apply perm_trans with (y :: x :: l); [now apply perm_skip | apply perm_swap].
Qed.

Lemma sort_Permutation (l : list A) : Permutation (sort comparefn l) l.
Proof.
  induction l as [|x l IH]; simpl.
  - apply Permutation_refl.
  - apply perm_trans with (x :: sort comparefn l).
    + apply insert_Permutation.
    + now apply perm_skip.
Qed.

(** When the comparator never puts a later element strictly first, the
    sort leaves the list as it is. *)
Lemma sort_unchanged (l : list A) :
  (forall x y, In x l -> In y l -> sortCompare comparefn x y <> Gt) ->
  sort comparefn l = l.
Proof.
  induction l as [|x l IH]; intros H; simpl.
  - reflexivity.
  - rewrite IH by (intros; apply H; now right).
    destruct l as [|y l]; simpl; [reflexivity|].
    specialize (H x y (or_introl eq_refl) (or_intror (or_introl eq_refl))).
    destruct (sortCompare comparefn x y); congruence.
Qed.

End SortFacts.

(** The order of numbers and the sign of a difference. *)

Lemma sign_sub_Gt (a b : number) :
  sign (sub b a) = Some Gt -> leb a b = true.
Proof.
  destruct a as [| |x|], b as [| |y|]; simpl; try discriminate; try reflexivity.
  intros H. injection H as H. apply Qle_bool_iff.
  apply Qgt_alt in H. lra.
Qed.

Lemma sign_sub_not_Gt (a b : number) :
  isNaN a = false -> isNaN b = false ->
  sign (sub b a) <> Some Gt -> leb b a = true.
Proof.
  destruct a as [| |x|], b as [| |y|]; simpl; try discriminate; try reflexivity;
    intros _ _ H; try (exfalso; apply H; reflexivity).
  apply Qle_bool_iff.
  destruct (Qlt_le_dec 0 (y - x)) as [Hlt | Hle]; [|lra].
  exfalso. apply H. f_equal. apply Qgt_alt. exact Hlt.
Qed.

Lemma leb_trans (a b c : number) :
  leb a b = true -> leb b c = true -> leb a c = true.
Proof.
  destruct a as [| |x|], b as [| |y|], c as [| |z|]; simpl;
    try discriminate; try reflexivity.
  rewrite !Qle_bool_iff. lra.
Qed.

Lemma sortCompare_Gt (x y : string) :
  sortCompare byParseFloat x y = Gt <->
  sign (sub (parseFloat y) (parseFloat x)) = Some Gt.
Proof.
  unfold sortCompare, byParseFloat.
  destruct (sign (sub (parseFloat y) (parseFloat x))); split; congruence.
Qed.

Lemma insert_descending (x : string) (l : list string) :
  isNaN (parseFloat x) = false ->
  Forall (fun y => isNaN (parseFloat y) = false) l ->
  descending l ->
  descending (insert byParseFloat x l).
Proof.
  unfold descending. intros Hx Hl Hs.
  induction Hs as [|y l Hs IH Hy]; simpl.
  - repeat constructor.
  - inversion Hl as [|? ? Hny Hl']; subst.
    destruct (sortCompare byParseFloat x y) eqn:E.
    + constructor; [now constructor|].
      assert (Hxy : leb (parseFloat y) (parseFloat x) = true).
      { apply sign_sub_not_Gt; auto. rewrite <- sortCompare_Gt. congruence. }
      constructor; [exact Hxy|].
      eapply Forall_impl; [|exact Hy]. simpl. intros z Hz.
      eapply leb_trans; eassumption.
    + constructor; [now constructor|].
      assert (Hxy : leb (parseFloat y) (parseFloat x) = true).
      { apply sign_sub_not_Gt; auto. rewrite <- sortCompare_Gt. congruence. }
      constructor; [exact Hxy|].
      eapply Forall_impl; [|exact Hy]. simpl. intros z Hz.
      eapply leb_trans; eassumption.
    + constructor; [now apply IH|].
      eapply Permutation_Forall;
        [apply Permutation_sym, insert_Permutation|].
      constructor; [|exact Hy].
      apply sign_sub_Gt. now apply sortCompare_Gt.
Qed.

Lemma sort_descending (l : list string) :
  Forall (fun y => isNaN (parseFloat y) = false) l ->
  descending (sort byParseFloat l).
Proof.
  induction l as [|x l IH]; intros H; simpl.
  - constructor.
  - inversion H; subst. apply insert_descending; auto.
    eapply Permutation_Forall; [apply Permutation_sym, sort_Permutation | assumption].
Qed.

Lemma sort_all_NaN (l : list string) :
  Forall (fun y => isNaN (parseFloat y) = true) l ->
  sort byParseFloat l = l.
Proof.
  intros H. apply sort_unchanged. intros x y Hx _.
  rewrite Forall_forall in H. specialize (H x Hx).
  unfold sortCompare, byParseFloat.
  destruct (parseFloat x); try discriminate.
  destruct (parseFloat y); simpl; discriminate.
Qed.

Section Dropdowns.

Variables flashAttn2 flashAttn3 : list Wheel.t.

Local Abbreviation getWheels := (getWheels flashAttn2 flashAttn3).
Local Abbreviation getUnique := (getUnique flashAttn2 flashAttn3).

(** C5, as amended.  [getUnique] returns the distinct values of the
    property among the wheels of the current scope, each once.  When
    every one of these values parses as a number, they are ordered
    descending by that number; when none does (the platform names), they
    stay in the order of their first occurrence in the scoped catalog. *)
Theorem getUnique_distinct_ordered st k :
  NoDup (getUnique st k) /\
  (forall x, In x (getUnique st k) <->
             exists w, In w (getWheels st) /\ prop w k = x) /\
  ((forall w, In w (getWheels st) -> isNaN (parseFloat (prop w k)) = false) ->
   descending (getUnique st k)) /\
  ((forall w, In w (getWheels st) -> isNaN (parseFloat (prop w k)) = true) ->
   getUnique st k = spreadSet (map (fun w => prop w k) (getWheels st))).
Proof.
  unfold getUnique.
  set (values := spreadSet (map (fun w => prop w k) (getWheels st))).
  assert (Hval : forall x, In x values <->
                           exists w, In w (getWheels st) /\ prop w k = x).
  { intros x. unfold values. rewrite spreadSet_In, in_map_iff.
    split; intros [w [H1 H2]]; exists w; auto. }
  repeat split.
  - eapply Permutation_NoDup;
      [apply Permutation_sym, sort_Permutation | apply spreadSet_NoDup].
  - intros H. apply Hval. eapply Permutation_in; [apply sort_Permutation | exact H].
  - intros H. apply Hval in H.
    eapply Permutation_in; [apply Permutation_sym, sort_Permutation | exact H].
  - intros Hnum. apply sort_descending, Forall_forall.
    intros x Hx. apply Hval in Hx as [w [Hw <-]]. now apply Hnum.
  - intros Hnan. apply sort_all_NaN, Forall_forall.
    intros x Hx. apply Hval in Hx as [w [Hw <-]]. now apply Hnan.
Qed.

End Dropdowns.

Lemma getUnique_distinct_ordered_witness :
  getUnique [wheelA; wheelB] [wheelC] (sampleState "all" noFilters "") K_py =
  ["3.9"; "3.12"; "3.10"] /\
  descending (getUnique [wheelA; wheelB] [wheelC] (sampleState "all" noFilters "") K_py) /\
  getUnique [wheelA; wheelB] [wheelC] (sampleState "all" noFilters "") K_os =
  ["linux_aarch64"; "linux_x86_64"; "win_amd64"].
Proof.
  split; [(vm_compute; reflexivity)|].
  destruct (getUnique_distinct_ordered [wheelA; wheelB] [wheelC]
              (sampleState "all" noFilters "") K_py) as (_ & _ & Hnum & _).
  destruct (getUnique_distinct_ordered [wheelA; wheelB] [wheelC]
              (sampleState "all" noFilters "") K_os) as (_ & _ & _ & Hnan).
  split.
  - apply Hnum. intros w [<- | [<- | [<- | []]]]; (vm_compute; reflexivity).
  - rewrite Hnan; [(vm_compute; reflexivity)|].
    intros w [<- | [<- | [<- | []]]]; (vm_compute; reflexivity).
Defined.

(** C5, as stated, fails for the platform facet: the two platform names
    parse as no number, and the list returned for them is not ordered
    descending by the parsed value. *)
Lemma platform_names_not_descending :
  getUnique [wheelA; wheelB] [] (sampleState "2" noFilters "") K_os =
  ["linux_aarch64"; "linux_x86_64"] /\
  parseFloat "linux_aarch64" = NaN /\
  parseFloat "linux_x86_64" = NaN /\
  ~ descending (getUnique [wheelA; wheelB] [] (sampleState "2" noFilters "") K_os).
Proof.
  assert (E : getUnique [wheelA; wheelB] [] (sampleState "2" noFilters "") K_os =
              ["linux_aarch64"; "linux_x86_64"]) by (vm_compute; reflexivity).
  split; [exact E|]. split; [vm_compute; reflexivity|].
  split; [vm_compute; reflexivity|].
  rewrite E. unfold descending. intros H.
  inversion H as [|? ? _ Hall]; subst.
  inversion Hall as [|? ? Hle _]; subst.
  vm_compute in Hle. discriminate Hle.
Qed.

(** ** Clearing the filters *)

Lemma keep_noFilters (w : Wheel.t) : keep noFilters "" w = true.
Proof. reflexivity. Qed.

Lemma filter_all {A : Type} (p : A -> bool) (l : list A) :
  (forall x, p x = true) -> filter p l = l.
Proof.
  intros H. induction l as [|x l IH]; simpl; [reflexivity|].
  now rewrite H, IH.
Qed.

Section Clearing.

Variables flashAttn2 flashAttn3 : list Wheel.t.

Local Abbreviation getWheels := (getWheels flashAttn2 flashAttn3).
Local Abbreviation getUnique := (getUnique flashAttn2 flashAttn3).
Local Abbreviation filterWheels := (filterWheels flashAttn2 flashAttn3).
Local Abbreviation clearFilters := (clearFilters flashAttn2 flashAttn3).

(** C6.  [clearFilters] puts every facet back on ["all"] and empties the
    search text, in the variables and in the search box, and leaves
    [currentVersion] as it was; after it [filterWheels] returns the whole
    scoped catalog, so the count it shows is the size of that catalog. *)
Theorem clearFilters_resets st :
  filters (clearFilters st) = noFilters /\
  searchQuery (clearFilters st) = "" /\
  Dom.search (page (clearFilters st)) = "" /\
  currentVersion (clearFilters st) = currentVersion st /\
  filterWheels (clearFilters st) = getWheels st /\
  length (filterWheels (clearFilters st)) = length (getWheels st) /\
  Dom.count (page (clearFilters st)) = length (getWheels st).
Proof.
  assert (E : filterWheels (clearFilters st) = getWheels st).
  { unfold filterWheels. simpl. apply filter_all, keep_noFilters. }
  repeat split; try reflexivity.
  - exact E.
  - now rewrite E.
  - simpl. fold (getWheels st). f_equal. apply filter_all, keep_noFilters.
Qed.

(** C7.  A second [clearFilters] changes nothing: the state after two
    calls, page included, is the state after one, and so are the list of
    visible wheels and the values of every dropdown. *)
Theorem clearFilters_idempotent st :
  clearFilters (clearFilters st) = clearFilters st /\
  filterWheels (clearFilters (clearFilters st)) = filterWheels (clearFilters st) /\
  (forall k, getUnique (clearFilters (clearFilters st)) k =
             getUnique (clearFilters st) k).
Proof.
  assert (E : clearFilters (clearFilters st) = clearFilters st) by reflexivity.
  split; [exact E|]. split; [now rewrite E|]. intros k. now rewrite E.
Qed.

End Clearing.

(** ** Two copies on one button *)

(** C9, as amended.  Two copies on one button, the second less than
    1500 ms after the first: the button carries the mark at most once,
    and each copy sets a callback of its own.  The mark goes when the
    callback of the first copy runs, 1500 ms after the first copy, and
    the callback of the second copy runs as well, 1500 ms after the
    second: the revert runs twice and no timer is reset. *)
Theorem copy_twice_timers_stack cmd (t1 t2 t : Z) :
  (0 <= t1)%Z -> (t1 <= t2)%Z -> (t2 < t1 + 1500)%Z -> (t2 <= t)%Z ->
  count_occ string_dec (Copy.classList (Copy.btn (Copy.twice cmd t1 t2 t))) "copied" <= 1 /\
  (Copy.shown (Copy.twice cmd t1 t2 t) = true <-> (t < t1 + 1500)%Z) /\
  ((t < t1 + 1500)%Z -> Copy.reverts (Copy.twice cmd t1 t2 t) = 0) /\
  ((t1 + 1500 <= t)%Z -> (t < t2 + 1500)%Z ->
   Copy.reverts (Copy.twice cmd t1 t2 t) = 1 /\
   Copy.timers (Copy.twice cmd t1 t2 t) = [(t2 + 1500)%Z]) /\
  ((t2 + 1500 <= t)%Z ->
   Copy.reverts (Copy.twice cmd t1 t2 t) = 2 /\
   Copy.timers (Copy.twice cmd t1 t2 t) = []).
Proof.
  intros H0 H12 Hlt Ht.
  unfold Copy.twice.
  assert (E1 : Copy.advance t1 Copy.idle =
               Copy.mkWorld t1 "" (Copy.mkButton ["copy-btn"] Copy.CopyIcon) [] 0).
  { unfold Copy.advance, Copy.idle. cbn. f_equal. lia. }
  rewrite E1.
  assert (E2 : Copy.advance t2
                 (Copy.copyCmd cmd
                    (Copy.mkWorld t1 "" (Copy.mkButton ["copy-btn"] Copy.CopyIcon) [] 0)) =
               Copy.mkWorld t2 cmd
                 (Copy.mkButton ["copy-btn"; "copied"] Copy.CheckIcon)
                 [(t1 + 1500)%Z] 0).
  { unfold Copy.advance, Copy.copyCmd, Copy.due. cbn [Copy.timers Copy.clock app filter].
    replace (t1 + 1500 <=? t2)%Z with false by (symmetry; apply Z.leb_gt; lia).
    cbn. f_equal. lia. }
  rewrite E2.
  unfold Copy.advance, Copy.copyCmd, Copy.due, Copy.shown.
  cbn [Copy.timers Copy.clock Copy.btn Copy.classList Copy.reverts Copy.clipboard
       app filter].
  destruct (t1 + 1500 <=? t)%Z eqn:Ea; destruct (t2 + 1500 <=? t)%Z eqn:Eb;
    try apply Z.leb_le in Ea; try apply Z.leb_le in Eb;
    try apply Z.leb_gt in Ea; try apply Z.leb_gt in Eb;
    try lia; cbn; repeat split; intros; try lia; try discriminate; auto.
Qed.

Lemma copy_twice_timers_stack_witness :
  Copy.shown (Copy.twice "pip install x" 0 1000 1499) = true /\
  Copy.reverts (Copy.twice "pip install x" 0 1000 1500) = 1 /\
  Copy.reverts (Copy.twice "pip install x" 0 1000 2500) = 2.
Proof.
  destruct (copy_twice_timers_stack "pip install x" 0 1000 1499) as (_ & Hs & _);
    [lia | lia | lia | lia |].
  destruct (copy_twice_timers_stack "pip install x" 0 1000 1500) as (_ & _ & _ & H1 & _);
    [lia | lia | lia | lia |].
  destruct (copy_twice_timers_stack "pip install x" 0 1000 2500) as (_ & _ & _ & _ & H2);
    [lia | lia | lia | lia |].
  split; [apply Hs; lia|].
  split; [apply H1; lia | apply H2; lia].
Defined.

(** C9, as stated, fails: with copies at 0 ms and at 1000 ms the mark is
    gone at 1500 ms, 500 ms after the second copy, and by 2500 ms the
    revert has run twice. *)
Lemma copy_twice_reverts_early_and_twice :
  (0 <= 1000)%Z /\ (1000 < 0 + 1500)%Z /\
  Copy.shown (Copy.twice "pip install x" 0 1000 1500) = false /\
  (1500 < 1000 + 1500)%Z /\
  Copy.reverts (Copy.twice "pip install x" 0 1000 2500) = 2.
Proof.
  repeat split; try lia; vm_compute; reflexivity.
Qed.

(** ** Further properties of the filter *)

Lemma filter_subseq_impl {A : Type} (p q : A -> bool) (l : list A) :
  (forall x, In x l -> p x = true -> q x = true) ->
  subseq (filter p l) (filter q l).
Proof.
  induction l as [|x l IH]; intros H; simpl.
  - constructor.
  - assert (IH' : subseq (filter p l) (filter q l))
      by (apply IH; intros y Hy; apply H; now right).
    destruct (p x) eqn:Ep.
    + rewrite (H x (or_introl eq_refl) Ep). now constructor.
    + destruct (q x); [now constructor | exact IH'].
Qed.





Lemma toLowerCase_empty (s : string) : toLowerCase s = "" <-> s = "".
Proof. destruct s; simpl; split; congruence. Qed.


Lemma selected_setFilter_same f fc x : selected (setFilter f fc x) fc = x.
Proof. destruct fc; reflexivity. Qed.

Lemma selected_setFilter_other f fc fc' x :
  fc <> fc' -> selected (setFilter f fc x) fc' = selected f fc'.
Proof. destruct fc, fc'; intros H; try reflexivity; contradiction. Qed.

Lemma facet_eq_dec (a b : facet) : {a = b} + {a <> b}.
Proof. decide equality. Qed.

Section MoreFiltering.

Variables flashAttn2 flashAttn3 : list Wheel.t.

Local Abbreviation getWheels := (getWheels flashAttn2 flashAttn3).
Local Abbreviation filterWheels := (filterWheels flashAttn2 flashAttn3).
Local Abbreviation onVersionClick := (onVersionClick flashAttn2 flashAttn3).
Local Abbreviation onSearchInput := (onSearchInput flashAttn2 flashAttn3).
Local Abbreviation onFilterChange := (onFilterChange flashAttn2 flashAttn3).

(** X1.  With the same selections and search text, the wheels shown for
    a scope other than ["2"] and ["3"] are those shown for ["2"] followed
    by those shown for ["3"], and the three counts add up. *)
Theorem scope_all_is_two_then_three st version :
  version <> "2" -> version <> "3" ->
  filterWheels (onVersionClick version st) =
  (filterWheels (onVersionClick "2" st) ++ filterWheels (onVersionClick "3" st))%list /\
  Dom.count (page (onVersionClick version st)) =
  Dom.count (page (onVersionClick "2" st)) + Dom.count (page (onVersionClick "3" st)).
Proof.
  intros H2 H3. apply String.eqb_neq in H2, H3.
  assert (E : filterWheels (onVersionClick version st) =
              (filterWheels (onVersionClick "2" st) ++
               filterWheels (onVersionClick "3" st))%list).
  { unfold filterWheels, getWheels. cbn. rewrite H2, H3. apply filter_app. }
  split; [exact E|].
  change (Dom.count (page (onVersionClick version st)))
    with (length (filterWheels (onVersionClick version st))).
  rewrite E, length_app. reflexivity.
Qed.

(** X2.  Putting a dropdown back on ["all"] takes no wheel away: the
    wheels shown before are still shown, in the same order. *)
Theorem facet_to_all_keeps_wheels st fc :
  subseq (filterWheels st) (filterWheels (onFilterChange fc "all" st)).
Proof.
  unfold filterWheels. cbn. apply filter_subseq_impl.
  intros w _ Hk. apply keep_spec in Hk as [Hm Hs]. apply keep_spec. split.
  - intros fc'. destruct (facet_eq_dec fc fc') as [<- | Hne].
    + left. apply selected_setFilter_same.
    + unfold meets. rewrite (selected_setFilter_other _ _ _ _ Hne). apply Hm.
  - exact Hs.
Qed.


(** X4.  The case of the letters of the search text does not matter: two
    texts that are the same in lower case show the same wheels. *)
Theorem search_text_case_ignored st q1 q2 :
  toLowerCase q1 = toLowerCase q2 ->
  filterWheels (onSearchInput q1 st) = filterWheels (onSearchInput q2 st).
Proof.
  intros E. unfold filterWheels. cbn. apply filter_ext. intros w.
  rewrite !keep_meetsb. f_equal.
  assert (Ht : truthy q1 = truthy q2).
  { destruct q1, q2; simpl in *; congruence. }
  rewrite Ht. unfold searchMatches. now rewrite E.
Qed.


(** X6.  With an empty search text the wheels shown are exactly the
    wheels of the scoped catalog that meet every facet selection. *)
Theorem empty_search_shows_facet_matches st w :
  searchQuery st = "" ->
  (In w (filterWheels st) <->
   In w (getWheels st) /\ forall fc, meets (filters st) w fc).
Proof.
  intros Hq. rewrite filterWheels_In, keep_spec, Hq. split.
  - intros [Hin [Hm _]]. auto.
  - intros [Hin Hm]. split; [exact Hin|]. split; [exact Hm|].
    intros H. now contradiction H.
Qed.

End MoreFiltering.

(** ** The page after a handler *)

Section Page.

Variables flashAttn2 flashAttn3 : list Wheel.t.

Local Abbreviation getWheels := (getWheels flashAttn2 flashAttn3).
Local Abbreviation getUnique := (getUnique flashAttn2 flashAttn3).
Local Abbreviation filterWheels := (filterWheels flashAttn2 flashAttn3).
Local Abbreviation populateFilters := (populateFilters flashAttn2 flashAttn3).
Local Abbreviation render := (render flashAttn2 flashAttn3).
Local Abbreviation clearFilters := (clearFilters flashAttn2 flashAttn3).
Local Abbreviation onLoad := (onLoad flashAttn2 flashAttn3).
Local Abbreviation onVersionClick := (onVersionClick flashAttn2 flashAttn3).
Local Abbreviation onSearchInput := (onSearchInput flashAttn2 flashAttn3).
Local Abbreviation onFilterChange := (onFilterChange flashAttn2 flashAttn3).
Local Abbreviation upToDate := (upToDate flashAttn2 flashAttn3).

Lemma render_upToDate st : upToDate (render st).
Proof.
  unfold upToDate, consistent.
  change (filterWheels (render st)) with (filterWheels st).
  unfold render. cbn.
  destruct (filterWheels st) as [|w l] eqn:E; cbn.
  - repeat split. intros cs H. discriminate.
  - repeat split; try lia.
    + now rewrite length_map.
    + intros cs H. now injection H as <-.
Qed.

Lemma getUnique_In st k x :
  In x (getUnique st k) <-> exists w, In w (getWheels st) /\ prop w k = x.
Proof.
  unfold getUnique. split.
  - intros H. apply (Permutation_in _ (sort_Permutation _ _)) in H.
    apply spreadSet_In, in_map_iff in H as [w [E Hw]]. exists w. auto.
  - intros [w [Hw E]].
    apply (Permutation_in _ (Permutation_sym (sort_Permutation _ _))).
    apply spreadSet_In, in_map_iff. exists w. auto.
Qed.






(** X8.  [render] and [populateFilters] write to different parts of the
    page and read none of what the other writes: they can run in either
    order, and running one of them a second time changes nothing. *)
Theorem render_populateFilters_compose st :
  render (populateFilters st) = populateFilters (render st) /\
  render (render st) = render st /\
  populateFilters (populateFilters st) = populateFilters st.
Proof. repeat split. Qed.

(** X9.  Changes of two different dropdowns can come in either order,
    and of two changes of one dropdown the later one stands. *)
Theorem filter_changes_compose st fc1 fc2 x y :
  (fc1 <> fc2 ->
   onFilterChange fc1 x (onFilterChange fc2 y st) =
   onFilterChange fc2 y (onFilterChange fc1 x st)) /\
  onFilterChange fc1 x (onFilterChange fc1 y st) = onFilterChange fc1 x st.
Proof.
  split.
  - intros Hne. destruct fc1, fc2; try reflexivity; contradiction.
  - destruct fc1; reflexivity.
Qed.

(** X10.  After the load handler the page shows the whole catalog,
    [flashAttn2] then [flashAttn3], and every dropdown reads ["all"]. *)
Theorem load_shows_whole_catalog p :
  filterWheels (onLoad p) = (flashAttn2 ++ flashAttn3)%list /\
  Dom.count (page (onLoad p)) = length flashAttn2 + length flashAttn3 /\
  forall fc, Dom.value (facetSelect (page (onLoad p)) fc) = "all".
Proof.
  assert (E : filterWheels (onLoad p) = (flashAttn2 ++ flashAttn3)%list).
  { unfold filterWheels. cbn. apply filter_all, keep_noFilters. }
  split; [exact E|]. split.
  - change (Dom.count (page (onLoad p))) with (length (filterWheels (onLoad p))).
    now rewrite E, length_app.
  - intros fc. destruct fc; reflexivity.
Qed.





(** X15.  The values a dropdown gets for a scope other than ["2"] and
    ["3"] are those it gets for ["2"] together with those it gets for
    ["3"]. *)
Theorem values_of_all_scopes st k version x :
  version <> "2" -> version <> "3" ->
  (In x (getUnique (onVersionClick version st) k) <->
   In x (getUnique (onVersionClick "2" st) k) \/
   In x (getUnique (onVersionClick "3" st) k)).
Proof.
  intros H2 H3. apply String.eqb_neq in H2, H3.
  rewrite !getUnique_In. unfold getWheels. cbn. rewrite H2, H3. split.
  - intros [w [Hw E]]. apply in_app_or in Hw as [Hw | Hw];
      [left | right]; exists w; auto.
  - intros [[w [Hw E]] | [w [Hw E]]]; exists w; split; auto;
      apply in_or_app; auto.
Qed.


(** X7.  After the load handler, a click on a version button, an input
    in the search box, a change of a dropdown and [clearFilters], the page
    shows the wheels the variables select at that moment: the count is
    their number, the list holds their cards in order, and the empty
    state stands in for the list exactly when there is none. *)
Theorem handlers_leave_page_upToDate p st version text fc x :
  upToDate (onLoad p) /\
  upToDate (onVersionClick version st) /\
  upToDate (onSearchInput text st) /\
  upToDate (onFilterChange fc x st) /\
  upToDate (clearFilters st).
Proof.
  repeat split; apply render_upToDate.
Qed.

End Page.

(** ** Runs of the copy button *)













(** ** Values that are the same number *)

Section Stable.

Context {A : Type} (comparefn : A -> A -> number) (p : A -> bool).

Lemma insert_filter (x : A) (l : list A) :
  (forall y, In y l -> p x = true -> sortCompare comparefn x y = Gt -> p y = false) ->
  filter p (insert comparefn x l) = filter p (x :: l).
Proof.
  induction l as [|y l IH]; intros H; [reflexivity|].
  cbn [insert]. destruct (sortCompare comparefn x y) eqn:E; try reflexivity.
  cbn [filter]. rewrite IH by (intros z Hz; apply H; now right).
  cbn [filter]. destruct (p x) eqn:Ex; [|reflexivity].
  now rewrite (H y (or_introl eq_refl) eq_refl E).
Qed.

Lemma sort_filter (l : list A) :
  (forall x y, In x l -> In y l ->
               p x = true -> sortCompare comparefn x y = Gt -> p y = false) ->
  filter p (sort comparefn l) = filter p l.
Proof.
  induction l as [|x l IH]; intros H; [reflexivity|].
  cbn [sort]. rewrite insert_filter.
  - cbn [filter]. rewrite IH by (intros a b Ha Hb; apply H; now right).
    reflexivity.
  - intros y Hy. apply H; [now left | right].
    eapply Permutation_in; [apply sort_Permutation | exact Hy].
Qed.

End Stable.

Lemma sign_sub_Gt_strict (a b : number) :
  sign (sub b a) = Some Gt -> leb b a = false.
Proof.
  destruct a as [| |x|], b as [| |y|]; simpl; try discriminate; try reflexivity.
  intros H. injection H as H. apply Qgt_alt in H.
  destruct (Qle_bool y x) eqn:E; [|reflexivity].
  apply Qle_bool_iff in E. lra.
Qed.

Section StableValues.

Variables flashAttn2 flashAttn3 : list Wheel.t.

Local Abbreviation getWheels := (getWheels flashAttn2 flashAttn3).
Local Abbreviation getUnique := (getUnique flashAttn2 flashAttn3).

(** X20.  When the values of a property all parse as numbers, those
    among them that are one and the same number (["12.1"] and ["12.10"])
    come in [getUnique]'s list in the order in which they first occur in
    the scoped catalog. *)
Theorem equal_numbers_keep_catalog_order st k c :
  (forall w, In w (getWheels st) -> isNaN (parseFloat (prop w k)) = false) ->
  filter (fun x => sameNumber (parseFloat x) c) (getUnique st k) =
  filter (fun x => sameNumber (parseFloat x) c)
         (spreadSet (map (fun w => prop w k) (getWheels st))).
Proof.
  intros _. unfold getUnique. apply sort_filter.
  intros x y _ _ Hx Hgt. unfold sameNumber in *.
  apply andb_true_iff in Hx as [Hxc Hcx].
  apply sortCompare_Gt, sign_sub_Gt_strict in Hgt.
  destruct (leb (parseFloat y) c) eqn:Hyc; [|reflexivity].
  destruct (leb c (parseFloat y)) eqn:Hcy; [|reflexivity].
  pose proof (leb_trans _ _ _ Hyc Hcx). congruence.
Qed.

End StableValues.

(** ** The further properties at sample inputs *)

Lemma scope_all_is_two_then_three_witness :
  filterWheels [wheelA; wheelB] [wheelC]
    (onVersionClick [wheelA; wheelB] [wheelC] "all"
       (sampleState "2" noFilters "12.")) =
  (filterWheels [wheelA; wheelB] [wheelC]
     (onVersionClick [wheelA; wheelB] [wheelC] "2"
        (sampleState "2" noFilters "12.")) ++
   filterWheels [wheelA; wheelB] [wheelC]
     (onVersionClick [wheelA; wheelB] [wheelC] "3"
        (sampleState "2" noFilters "12.")))%list /\
  Dom.count (page (onVersionClick [wheelA; wheelB] [wheelC] "all"
                     (sampleState "2" noFilters "12."))) =
  Dom.count (page (onVersionClick [wheelA; wheelB] [wheelC] "2"
                     (sampleState "2" noFilters "12."))) +
  Dom.count (page (onVersionClick [wheelA; wheelB] [wheelC] "3"
                     (sampleState "2" noFilters "12."))).
Proof.
  apply (scope_all_is_two_then_three [wheelA; wheelB] [wheelC]
           (sampleState "2" noFilters "12.") "all"); discriminate.
Defined.


Lemma search_text_case_ignored_witness :
  filterWheels [wheelA; wheelB] [wheelC]
    (onSearchInput [wheelA; wheelB] [wheelC] "AArch64" (sampleState "all" noFilters "")) =
  filterWheels [wheelA; wheelB] [wheelC]
    (onSearchInput [wheelA; wheelB] [wheelC] "aarch64" (sampleState "all" noFilters "")).
Proof.
  apply (search_text_case_ignored [wheelA; wheelB] [wheelC]
           (sampleState "all" noFilters "") "AArch64" "aarch64").
  reflexivity.
Defined.


Lemma empty_search_shows_facet_matches_witness :
  In wheelB (filterWheels [wheelA; wheelB] [wheelC]
               (sampleState "2" (setFilter noFilters Python "3.9") "")) <->
  In wheelB (getWheels [wheelA; wheelB] [wheelC]
               (sampleState "2" (setFilter noFilters Python "3.9") "")) /\
  forall fc, meets (setFilter noFilters Python "3.9") wheelB fc.
Proof.
  apply (empty_search_shows_facet_matches [wheelA; wheelB] [wheelC]
           (sampleState "2" (setFilter noFilters Python "3.9") "") wheelB).
  reflexivity.
Defined.

Lemma filter_changes_compose_witness :
  onFilterChange [wheelA; wheelB] [wheelC] Cuda "12.1"
    (onFilterChange [wheelA; wheelB] [wheelC] Python "3.10"
       (sampleState "all" noFilters "")) =
  onFilterChange [wheelA; wheelB] [wheelC] Python "3.10"
    (onFilterChange [wheelA; wheelB] [wheelC] Cuda "12.1"
       (sampleState "all" noFilters "")).
Proof.
  apply (proj1 (filter_changes_compose [wheelA; wheelB] [wheelC]
                  (sampleState "all" noFilters "") Cuda Python "12.1" "3.10")).
  discriminate.
Defined.





Lemma values_of_all_scopes_witness :
  In "12.8" (getUnique [wheelA; wheelB] [wheelC]
               (onVersionClick [wheelA; wheelB] [wheelC] "all"
                  (sampleState "2" noFilters "")) K_cuda) <->
  In "12.8" (getUnique [wheelA; wheelB] [wheelC]
               (onVersionClick [wheelA; wheelB] [wheelC] "2"
                  (sampleState "2" noFilters "")) K_cuda) \/
  In "12.8" (getUnique [wheelA; wheelB] [wheelC]
               (onVersionClick [wheelA; wheelB] [wheelC] "3"
                  (sampleState "2" noFilters "")) K_cuda).
Proof.
  apply (values_of_all_scopes [wheelA; wheelB] [wheelC]
           (sampleState "2" noFilters "") K_cuda "all" "12.8"); discriminate.
Defined.




Lemma equal_numbers_keep_catalog_order_witness :
  filter (fun x => sameNumber (parseFloat x) (parseFloat "12.1"))
         (getUnique [wheelD; wheelB; wheelA] [wheelC]
            (sampleState "all" noFilters "") K_cuda) =
  filter (fun x => sameNumber (parseFloat x) (parseFloat "12.1"))
         (spreadSet (map (fun w => prop w K_cuda)
                       (getWheels [wheelD; wheelB; wheelA] [wheelC]
                          (sampleState "all" noFilters "")))).
Proof.
  apply (equal_numbers_keep_catalog_order [wheelD; wheelB; wheelA] [wheelC]
           (sampleState "all" noFilters "") K_cuda (parseFloat "12.1")).
  intros w [<- | [<- | [<- | [<- | []]]]]; vm_compute; reflexivity.
Defined.
